(** * Inquiry intake handler: a shallow embedding of [backend/main.py] and
    [schemas.py], with the properties of the handler [create_inquiry].

    Python values are modelled as follows: a [str] is the list of its Unicode
    code points, [bytes] is a list of bytes, an [int] is a [Z], [Optional[T]]
    is [option T].  The handler runs in a small state-and-exception monad
    over a world made of the disk and the document store. *)

From Stdlib Require Import ZArith NArith List Ascii String DecimalString Lia.
From stdpp Require Import base option list gmap.

Local Open Scope list_scope.

(** ** Python strings and bytes *)

Definition char := N.
Definition str := list char.
Definition bytes := list Byte.byte.

(** A literal made of ASCII characters only. *)
Definition lit (s : String.string) : str :=
  map N_of_ascii (list_ascii_of_string s).

(** [len(x)] as a Python int. *)
Definition len {A} (l : list A) : Z := Z.of_nat (length l).

(** [s.startswith(prefix)] *)
Fixpoint startswith (s prefix : str) {struct prefix} : bool :=
  match prefix, s with
  | [], _ => true
  | p :: prefix', c :: s' => (c =? p)%N && startswith s' prefix'
  | _ :: _, [] => false
  end.

(** The scan of [str.replace] for a pattern [old] that is not empty: left to
    right, occurrences do not overlap.  [fuel] bounds the number of
    characters still to be looked at. *)
Fixpoint replace_scan (fuel : nat) (s old new : str) : str :=
  match fuel with
  | O => s
  | S fuel' =>
      match s with
      | [] => []
      | c :: s' =>
          if startswith s old
          then new ++ replace_scan fuel' (drop (length old) s) old new
          else c :: replace_scan fuel' s' old new
      end
  end.

(** [s.replace(old, new)].  With an empty pattern Python puts [new] before
    every character and at the end. *)
Definition replace (s old new : str) : str :=
  match old with
  | [] => new ++ flat_map (fun c => c :: new) s
  | _ :: _ => replace_scan (length s) s old new
  end.

(** [x or default] for an [Optional[str]]: [None] and the empty string are
    falsy. *)
Definition or_str (x : option str) (default : str) : str :=
  match x with
  | Some (c :: s) => c :: s
  | Some [] | None => default
  end.

(** [safe_name = f.filename.replace("/", "_").replace("\\", "_")]
    (main.py, line 59), for a filename that is a string. *)
Definition slash : str := lit "/".
Definition backslash : str := [92%N].
Definition underscore : str := lit "_".

Definition safe_name (filename : str) : str :=
  replace (replace filename slash underscore) backslash underscore.

(** [os.path.join(a, b)] of posixpath. *)
Definition endswith_sep (path : str) : bool :=
  match last path with
  | Some c => (c =? 47)%N
  | None => false
  end.

Definition path_join (a b : str) : str :=
  if startswith b slash then b
  else match a with
       | [] => b
       | _ :: _ => if endswith_sep a then a ++ b else a ++ slash ++ b
       end.

(** [str(n)] for a Python int. *)
Definition str_of_int (n : Z) : str :=
  lit (NilZero.string_of_int (Z.to_int n)).

(** ** Exceptions and the answers of the environment *)

(** The exceptions the handler meets.  [Exception text] stands for any
    exception raised by the runtime, the disk or the store, [text] being
    [str(e)]; [ValidationError] is pydantic's; [HTTPException] is the one
    the handler raises itself. *)
Inductive exn :=
| Exception (text : str)
| ValidationError (text : str)
| HTTPException (status_code : Z) (detail : str).

(** [str(e)]; for an [HTTPException] this is Starlette's
    ["{status_code}: {detail}"]. *)
Definition py_str (e : exn) : str :=
  match e with
  | Exception text | ValidationError text => text
  | HTTPException status_code detail =>
      str_of_int status_code ++ lit ": " ++ detail
  end.

(** What a call into the environment answers: a value, or an exception
    whose [str(e)] is [text]. *)
Inductive answer (A : Type) :=
| Gives (a : A)
| Fails (text : str).
Arguments Gives {A} a.
Arguments Fails {A} text.

(** What the disk answers to [open(dest_path, "wb")] followed by
    [out.write(content)] (main.py, lines 62-63): both succeed; [open]
    raises and the disk is untouched; or [open] succeeds, which creates or
    truncates the file, and the write raises after [written] bytes. *)
Inductive disk_answer :=
| Stored
| OpenRaises (text : str)
| WriteRaises (text : str) (written : nat).

(** ** schemas.py *)

Module schemas.

Record InquiryFile := {
  filename : str;
  content_type : option str;
  size : option Z;
}.

Record Inquiry := {
  name : str;
  email : str;
  phone : str;
  zip_city : str;
  project_type : str;
  description : str;
  files : list InquiryFile;
  source : option str;
}.

End schemas.

(** ** The request and its environment *)

(** An uploaded file as the handler sees it: its filename, its declared
    content type, and what [await f.read()] answers. *)
Record UploadFile := {
  filename : option str;
  content_type : option str;
  read : answer bytes;
}.

Record InquiryResponse := {
  id : str;
  message : str;
}.

(** The parts of one request that the source leaves to the platform:
    the working directory, [os.makedirs], pydantic's [EmailStr] validator
    (which answers the normalised address or rejects the value), and the
    store's answer to the insert (the generated identifier or a failure). *)
Record Env := {
  getcwd : str;
  makedirs : answer unit;
  EmailStr : str -> answer str;
  insert_one : answer str;
}.

(** The world the handler acts on: the files on disk by path, and the
    documents of the store, each with the name of its collection, in
    insertion order. *)
Record World := {
  disk : gmap str bytes;
  store : list (str * schemas.Inquiry);
}.

Definition set_disk (f : gmap str bytes -> gmap str bytes) (w : World) : World :=
  {| disk := f (disk w); store := store w |}.

Definition set_store
    (f : list (str * schemas.Inquiry) -> list (str * schemas.Inquiry))
    (w : World) : World :=
  {| disk := disk w; store := f (store w) |}.

(** ** The monad of the handler: state and exceptions *)

Inductive result (A : Type) :=
| Return (a : A)
| Raise (e : exn).
Arguments Return {A} a.
Arguments Raise {A} e.

Definition M (A : Type) : Type := World -> result A * World.

#[export] Instance M_ret : MRet M := fun A a w => (Return a, w).

#[export] Instance M_bind : MBind M := fun A B k m w =>
  match m w with
  | (Return a, w') => k a w'
  | (Raise e, w') => (Raise e, w')
  end.

Definition raise {A} (e : exn) : M A := fun w => (Raise e, w).

(** [try: body  except Exception as e: handler e] *)
Definition try_except {A} (body : M A) (handler : exn -> M A) : M A :=
  fun w =>
    match body w with
    | (Return a, w') => (Return a, w')
    | (Raise e, w') => handler e w'
    end.

Definition call {A} (a : answer A) : M A :=
  match a with
  | Gives x => mret x
  | Fails text => raise (Exception text)
  end.

(** [f.filename.replace(...)] when [f.filename] is [None]. *)
Definition no_replace : str :=
  lit "'NoneType' object has no attribute 'replace'".

Definition get_filename (f : UploadFile) : M str :=
  match filename f with
  | Some s => mret s
  | None => raise (Exception no_replace)
  end.

(** [with open(dest_path, "wb") as out: out.write(content)] *)
Definition open_write (dest_path : str) (content : bytes) (a : disk_answer)
  : M unit :=
  fun w =>
    match a with
    | Stored => (Return tt, set_disk <[dest_path := content]> w)
    | OpenRaises text => (Raise (Exception text), w)
    | WriteRaises text written =>
        (Raise (Exception text),
         set_disk <[dest_path := take written content]> w)
    end.

(** Modelled from the spec: [create_document] of [database.py], which is not
    among the sources.  It inserts the record into the named collection and
    returns the identifier the store generated, or fails with a store error
    and inserts nothing (spec, section 4.2). *)
Definition create_document (a : answer str) (collection_name : str)
    (data : schemas.Inquiry) : M str :=
  fun w =>
    match a with
    | Gives inserted_id =>
        (Return inserted_id, set_store (fun s => s ++ [(collection_name, data)]) w)
    | Fails text => (Raise (Exception text), w)
    end.

(** [Inquiry(...)]: the pydantic model validates its fields; the string
    fields accept any string, [email] goes through [EmailStr]. *)
Definition Inquiry_init (env : Env)
    (name email phone zip_city project_type description : str)
    (files : list schemas.InquiryFile) (source : option str)
  : M schemas.Inquiry :=
  match EmailStr env email with
  | Gives email' =>
      mret {| schemas.name := name;
              schemas.email := email';
              schemas.phone := phone;
              schemas.zip_city := zip_city;
              schemas.project_type := project_type;
              schemas.description := description;
              schemas.files := files;
              schemas.source := source |}
  | Fails text => raise (ValidationError text)
  end.

(** ** main.py: [create_inquiry] *)

Definition octet_stream : str := lit "application/octet-stream".
Definition website : str := lit "website".
Definition inquiry_collection : str := lit "inquiry".
Definition upload_failed : str := lit "Fehler beim Datei-Upload: ".
Definition database_failed : str := lit "Datenbankfehler: ".
(** "Anfrage erfolgreich übermittelt"; code point 252 is u-umlaut. *)
Definition success_message : str :=
  lit "Anfrage erfolgreich " ++ [252%N] ++ lit "bermittelt".

(** The body of the [try] of the loop (lines 58-70) for one file. *)
Definition store_upload (upload_dir : str) (f : UploadFile) (a : disk_answer)
    (file_meta : list schemas.InquiryFile) : M (list schemas.InquiryFile) :=
  name ← get_filename f;
  let safe_name := replace (replace name slash underscore) backslash underscore in
  let dest_path := path_join upload_dir safe_name in
  content ← call (read f);
  open_write dest_path content a;;
  mret (file_meta ++
        [ {| schemas.filename := safe_name;
             schemas.content_type := Some (or_str (content_type f) octet_stream);
             schemas.size := Some (len content) |} ]).

(** The loop [for f in files or []] (lines 56-72); each file comes with the
    answer of the disk for it. *)
Fixpoint for_files (upload_dir : str) (files : list (UploadFile * disk_answer))
    (file_meta : list schemas.InquiryFile) : M (list schemas.InquiryFile) :=
  match files with
  | [] => mret file_meta
  | (f, a) :: files' =>
      file_meta' ← try_except (store_upload upload_dir f a file_meta)
        (fun e => raise (HTTPException 500%Z
                           (upload_failed ++ take 100 (py_str e))));
      for_files upload_dir files' file_meta'
  end.

Definition create_inquiry (env : Env)
    (name email phone zip_city project_type description : str)
    (source : option str) (files : list (UploadFile * disk_answer))
  : M InquiryResponse :=
  let upload_dir := path_join (getcwd env) (lit "uploads") in
  call (makedirs env);;
  file_meta ← for_files upload_dir files [];
  inquiry ← Inquiry_init env name email phone zip_city project_type
              description file_meta (Some (or_str source website));
  try_except
    (inserted_id ← create_document (insert_one env) inquiry_collection inquiry;
     mret {| id := inserted_id; message := success_message |})
    (fun e => raise (HTTPException 500%Z
                       (database_failed ++ take 100 (py_str e)))).

(** ** What the loop does, file by file *)

Definition dest_path (upload_dir name : str) : str :=
  path_join upload_dir (safe_name name).

(** The text of the exception that storing one file raises, if any: a
    missing filename, a failing read, a failing open or a failing write. *)
Definition upload_fault (fa : UploadFile * disk_answer) : option str :=
  match filename fa.1, read fa.1, fa.2 with
  | None, _, _ => Some no_replace
  | Some _, Fails text, _ => Some text
  | Some _, Gives _, OpenRaises text => Some text
  | Some _, Gives _, WriteRaises text _ => Some text
  | Some _, Gives _, Stored => None
  end.

(** The metadata entry recorded for a file that was stored. *)
Definition entry_of (fa : UploadFile * disk_answer)
  : option schemas.InquiryFile :=
  match filename fa.1, read fa.1, fa.2 with
  | Some name, Gives content, Stored =>
      Some {| schemas.filename := safe_name name;
              schemas.content_type :=
                Some (or_str (content_type fa.1) octet_stream);
              schemas.size := Some (len content) |}
  | _, _, _ => None
  end.

(** What storing one file leaves on the disk. *)
Definition disk_effect (upload_dir : str) (fa : UploadFile * disk_answer)
    (d : gmap str bytes) : gmap str bytes :=
  match filename fa.1, read fa.1, fa.2 with
  | Some name, Gives content, Stored =>
      <[dest_path upload_dir name := content]> d
  | Some name, Gives content, WriteRaises _ written =>
      <[dest_path upload_dir name := take written content]> d
  | _, _, _ => d
  end.

(** The files the loop gets to: all of them up to and including the first
    one that fails. *)
Fixpoint attempted (files : list (UploadFile * disk_answer))
  : list (UploadFile * disk_answer) :=
  match files with
  | [] => []
  | fa :: files' =>
      fa :: match upload_fault fa with
            | None => attempted files'
            | Some _ => []
            end
  end.

Fixpoint first_fault (files : list (UploadFile * disk_answer)) : option str :=
  match files with
  | [] => None
  | fa :: files' =>
      match upload_fault fa with
      | None => first_fault files'
      | Some text => Some text
      end
  end.

Definition disk_effects (upload_dir : str)
    (files : list (UploadFile * disk_answer)) (d : gmap str bytes)
  : gmap str bytes :=
  foldl (fun d fa => disk_effect upload_dir fa d) d files.

Definition upload_dir_of (env : Env) : str :=
  path_join (getcwd env) (lit "uploads").

(** The record the handler builds once every file is stored and the address
    is accepted as [email']. *)
Definition built_inquiry
    (name email' phone zip_city project_type description : str)
    (files : list (UploadFile * disk_answer)) (source : option str)
  : schemas.Inquiry :=
  {| schemas.name := name;
     schemas.email := email';
     schemas.phone := phone;
     schemas.zip_city := zip_city;
     schemas.project_type := project_type;
     schemas.description := description;
     schemas.files := omap entry_of files;
     schemas.source := Some (or_str source website) |}.

(** ** Sample requests *)

(** A stand-in for pydantic's [EmailStr], used to run the handler on sample
    requests: it accepts the addresses that hold an '@' (code point 64),
    unchanged, and rejects the others.  Every address without '@' is
    rejected by [EmailStr] as well. *)
Definition sample_EmailStr (value : str) : answer str :=
  if bool_decide (64%N ∈ value) then Gives value
  else Fails (lit "value is not a valid email address").

Definition sample_env : Env :=
  {| getcwd := lit "/srv/app";
     makedirs := Gives tt;
     EmailStr := sample_EmailStr;
     insert_one := Gives (lit "65a1f0c2d4e5") |}.

(** The same platform with the store unreachable; the text is longer than
    100 characters. *)
Definition unreachable_env : Env :=
  {| getcwd := lit "/srv/app";
     makedirs := Gives tt;
     EmailStr := sample_EmailStr;
     insert_one := Fails (lit "localhost:27017: [Errno 111] Connection refused" ++ repeat 46%N 80) |}.

Definition empty_world : World := {| disk := ∅; store := [] |}.

Definition plan_pdf : UploadFile :=
  {| filename := Some (lit "plan.pdf");
     content_type := Some (lit "application/pdf");
     read := Gives (repeat Byte.x25 2048) |}.

(** A part whose Content-Type header is present and empty. *)
Definition untyped_bin : UploadFile :=
  {| filename := Some (lit "../notes/site\plan.bin");
     content_type := Some [];
     read := Gives [Byte.x01; Byte.x02; Byte.x03] |}.

Definition no_header : UploadFile :=
  {| filename := Some (lit "photo.jpg");
     content_type := None;
     read := Gives [Byte.xff; Byte.xd8] |}.

(** The disk is full: the file is created and the write raises after one
    byte. *)
Definition disk_full : disk_answer :=
  WriteRaises (lit "[Errno 28] No space left on device") 1.

Definition max_mustermann (email : str) (name : str) (source : option str)
    (env : Env) (files : list (UploadFile * disk_answer)) : M InquiryResponse :=
  create_inquiry env name email (lit "0123456789") (lit "12345 Berlin")
    (lit "Neubau") (lit "Einfamilienhaus") source files.

(** ** Which write reaches a path *)

(** The path and the bytes that storing one file puts on the disk, if it
    gets as far as creating the file. *)
Definition effect_at (upload_dir : str) (fa : UploadFile * disk_answer)
  : option (str * bytes) :=
  match filename fa.1, read fa.1, fa.2 with
  | Some name, Gives content, Stored =>
      Some (dest_path upload_dir name, content)
  | Some name, Gives content, WriteRaises _ written =>
      Some (dest_path upload_dir name, take written content)
  | _, _, _ => None
  end.

(** The bytes left under [path] by the last file of the list that lands
    there. *)
Fixpoint last_write (upload_dir : str) (files : list (UploadFile * disk_answer))
    (path : str) : option bytes :=
  match files with
  | [] => None
  | fa :: files' =>
      match last_write upload_dir files' path with
      | Some content => Some content
      | None =>
          match effect_at upload_dir fa with
          | Some (p, content) =>
              if decide (p = path) then Some content else None
          | None => None
          end
      end
  end.

(** ** main.py: [test_database] *)

(** The values held by the response dictionary. *)
Inductive value :=
| VStr (s : str)
| VNone
| VList (l : list str).

(** The database handle [_db]: its [name] attribute, when it has one, and
    what [list_collection_names()] answers. *)
Record Database := {
  db_name : option str;
  list_collection_names : answer (list str);
}.

(** What [from database import db as _db] does: it raises [ImportError],
    raises another exception, or binds [_db], which may be [None]. *)
Inductive import_answer :=
| ImportError
| ImportRaises (text : str)
| Imported (_db : option Database).

Record DiagEnv := {
  import_db : import_answer;
  getenv : str -> option str;
}.

Definition check_mark : str := [9989%N].
Definition cross_mark : str := [10060%N].
Definition warning_sign : str := [9888%N; 65039%N].

(** Truth value of an [Optional[str]]. *)
Definition truthy (x : option str) : bool :=
  match x with
  | Some (_ :: _) => true
  | Some [] | None => false
  end.

(** Lines 95-102. *)
Definition initial_response : gmap str value :=
  <[lit "collections" := VList []]>
  (<[lit "connection_status" := VStr (lit "Not Connected")]>
  (<[lit "database_name" := VNone]>
  (<[lit "database_url" := VNone]>
  (<[lit "database" := VStr (cross_mark ++ lit " Not Available")]>
  (<[lit "backend" := VStr (check_mark ++ lit " Running")]> ∅))))).

(** Lines 104-127: the two nested [try] blocks.  Each [except] clause sees
    the dictionary as the assignments before the exception left it. *)
Definition probe_database (import : import_answer)
    (response : gmap str value) : gmap str value :=
  match import with
  | Imported (Some _db) =>
      let response :=
        <[lit "database" := VStr (check_mark ++ lit " Available")]> response in
      let response :=
        <[lit "database_url" := VStr (check_mark ++ lit " Configured")]>
          response in
      let response :=
        <[lit "database_name" :=
            VStr (match db_name _db with
                  | Some name => name
                  | None => check_mark ++ lit " Connected"
                  end)]> response in
      let response :=
        <[lit "connection_status" := VStr (lit "Connected")]> response in
      match list_collection_names _db with
      | Gives collections =>
          let response :=
            <[lit "collections" := VList (take 10 collections)]> response in
          <[lit "database" := VStr (check_mark ++ lit " Connected & Working")]>
            response
      | Fails text =>
          <[lit "database" :=
              VStr (warning_sign ++ lit "  Connected but Error: "
                    ++ take 50 text)]> response
      end
  | Imported None =>
      <[lit "database" :=
          VStr (warning_sign ++ lit "  Available but not initialized")]>
        response
  | ImportError =>
      <[lit "database" :=
          VStr (cross_mark
                ++ lit " Database module not found (run enable-database first)")]>
        response
  | ImportRaises text =>
      <[lit "database" := VStr (cross_mark ++ lit " Error: " ++ take 50 text)]>
        response
  end.

Definition set_or_not (x : option str) : value :=
  VStr (if truthy x then check_mark ++ lit " Set"
        else cross_mark ++ lit " Not Set").

Definition test_database (env : DiagEnv) : gmap str value :=
  let response := probe_database (import_db env) initial_response in
  let response :=
    <[lit "database_url" := set_or_not (getenv env (lit "DATABASE_URL"))]>
      response in
  let response :=
    <[lit "database_name" := set_or_not (getenv env (lit "DATABASE_NAME"))]>
      response in
  response.

(** ** More sample requests *)



Definition nameless : UploadFile :=
  {| filename := None;
     content_type := Some (lit "text/plain");
     read := Gives [Byte.x41] |}.

(** The upload directory cannot be created. *)
Definition readonly_env : Env :=
  {| getcwd := lit "/srv/app";
     makedirs := Fails (lit "[Errno 30] Read-only file system: '/srv/app/uploads'");
     EmailStr := sample_EmailStr;
     insert_one := Gives (lit "65a1f0c2d4e5") |}.

Definition second_env : Env :=
  {| getcwd := lit "/srv/app";
     makedirs := Gives tt;
     EmailStr := sample_EmailStr;
     insert_one := Gives (lit "65a1f0c2d4e6") |}.

(** A database with twelve collections, and one whose listing times out. *)
Definition twelve : list str :=
  map (fun n => lit "c" ++ [(48 + N.of_nat n)%N]) (seq 0 10)
  ++ [lit "inquiry"; lit "user"].

Definition working_db : Database :=
  {| db_name := Some (lit "app"); list_collection_names := Gives twelve |}.

Definition timing_out_db : Database :=
  {| db_name := Some (lit "app");
     list_collection_names :=
       Fails (lit "localhost:27017: timed out, Timeout: 5.0s, " ++ repeat 46%N 40) |}.

Definition only_url (key : str) : option str :=
  if decide (key = lit "DATABASE_URL") then Some (lit "mongodb://localhost")
  else if decide (key = lit "DATABASE_NAME") then Some []
  else None.

(** The keys of the response of [test_database]. *)
Definition response_keys : gset str :=
  {[ lit "backend"; lit "database"; lit "database_url";
     lit "database_name"; lit "connection_status"; lit "collections" ]}.

Definition working_diag : DiagEnv :=
  {| import_db := Imported (Some working_db); getenv := only_url |}.

Definition timing_out_diag : DiagEnv :=
  {| import_db := Imported (Some timing_out_db); getenv := only_url |}.

(** ** Replacing one character *)

Definition subst_char (a b c : char) : char := if (c =? a)%N then b else c.

Lemma replace_scan_char (a b : char) (s : str) (fuel : nat) :
  (length s <= fuel)%nat ->
  replace_scan fuel s [a] [b] = map (subst_char a b) s.
Proof.
  revert fuel; induction s as [|c s IH]; intros fuel Hfuel.
  - destruct fuel; reflexivity.
  - destruct fuel as [|fuel]; [simpl in Hfuel; lia|].
    simpl in Hfuel. cbn [replace_scan startswith map].
    unfold subst_char at 1.
    destruct (c =? a)%N; cbn -[replace_scan];
      rewrite IH by lia; reflexivity.
Qed.

Lemma replace_char (a b : char) (s : str) :
  replace s [a] [b] = map (subst_char a b) s.
Proof. unfold replace. apply replace_scan_char. lia. Qed.

Lemma subst_char_absent (a b : char) (s : str) :
  a ∉ s -> map (subst_char a b) s = s.
Proof.
  induction s as [|c s IH]; intros Hs; [reflexivity|].
  apply not_elem_of_cons in Hs as [Hc Hs]. cbn [map].
  rewrite IH by assumption. unfold subst_char.
  destruct (N.eqb_spec c a); congruence.
Qed.

Lemma subst_char_removes (a b : char) (s : str) :
  a <> b -> a ∉ map (subst_char a b) s.
Proof.
  intros Hab. induction s as [|c s IH]; cbn [map].
  - apply not_elem_of_nil.
  - apply not_elem_of_cons. split; [|exact IH].
    unfold subst_char. destruct (N.eqb_spec c a); congruence.
Qed.

Lemma subst_char_keeps_absent (a b x : char) (s : str) :
  x <> b -> x ∉ s -> x ∉ map (subst_char a b) s.
Proof.
  intros Hxb. induction s as [|c s IH]; cbn [map]; intros Hs.
  - apply not_elem_of_nil.
  - apply not_elem_of_cons in Hs as [Hc Hs].
    apply not_elem_of_cons. split; [|auto].
    unfold subst_char. destruct (c =? a)%N; congruence.
Qed.

Lemma safe_name_map (filename : str) :
  safe_name filename =
  map (subst_char 92 95)%N (map (subst_char 47 95)%N filename).
Proof.
  unfold safe_name, slash, backslash, underscore.
  change (lit "/") with [47%N]. change (lit "_") with [95%N].
  now rewrite !replace_char.
Qed.

Lemma safe_name_no_slash (filename : str) : 47%N ∉ safe_name filename.
Proof.
  rewrite safe_name_map.
  apply subst_char_keeps_absent; [discriminate|].
  apply subst_char_removes; discriminate.
Qed.

Lemma safe_name_no_backslash (filename : str) : 92%N ∉ safe_name filename.
Proof. rewrite safe_name_map. apply subst_char_removes; discriminate. Qed.

Lemma safe_name_fixed (s : str) :
  47%N ∉ s -> 92%N ∉ s -> safe_name s = s.
Proof.
  intros H1 H2. rewrite safe_name_map.
  rewrite (subst_char_absent 47%N) by assumption.
  now apply subst_char_absent.
Qed.


(** ** The loop over the files *)

Lemma set_disk_id (w : World) : set_disk (fun d => d) w = w.
Proof. now destruct w. Qed.

Lemma set_disk_set_disk (f g : gmap str bytes -> gmap str bytes) (w : World) :
  set_disk g (set_disk f w) = set_disk (fun d => g (f d)) w.
Proof. reflexivity. Qed.

Lemma store_set_disk (f : gmap str bytes -> gmap str bytes) (w : World) :
  store (set_disk f w) = store w.
Proof. reflexivity. Qed.

Lemma store_upload_spec (upload_dir : str) (f : UploadFile) (a : disk_answer)
    (file_meta : list schemas.InquiryFile) (w : World) :
  store_upload upload_dir f a file_meta w =
  (match upload_fault (f, a) with
   | None => Return (file_meta ++ option_list (entry_of (f, a)))
   | Some text => Raise (Exception text)
   end,
   set_disk (disk_effect upload_dir (f, a)) w).
Proof.
  unfold store_upload, get_filename, upload_fault, entry_of, disk_effect,
    dest_path, safe_name, call, open_write.
  cbn [fst snd]. destruct w as [d s].
  destruct (filename f) as [name|]; [|reflexivity].
  destruct (read f) as [content|text]; [|reflexivity].
  destruct a; reflexivity.
Qed.

Lemma for_files_spec (upload_dir : str)
    (files : list (UploadFile * disk_answer))
    (file_meta : list schemas.InquiryFile) (w : World) :
  for_files upload_dir files file_meta w =
  (match first_fault files with
   | None => Return (file_meta ++ omap entry_of files)
   | Some text =>
       Raise (HTTPException 500%Z (upload_failed ++ take 100 text))
   end,
   set_disk (disk_effects upload_dir (attempted files)) w).
Proof.
  revert file_meta w. induction files as [|[f a] files IH]; intros file_meta w.
  - cbn. rewrite app_nil_r. now destruct w.
  - cbn [for_files first_fault attempted omap].
    unfold mbind at 1, M_bind, try_except.
    rewrite store_upload_spec.
    destruct (upload_fault (f, a)) as [text|] eqn:Hfault.
    + reflexivity.
    + assert (Hentry : exists m, entry_of (f, a) = Some m).
      { unfold upload_fault, entry_of in *. cbn [fst snd] in *.
        destruct (filename f); [|discriminate].
        destruct (read f); [|discriminate].
        destruct a; try discriminate. eauto. }
      destruct Hentry as [m Hm].
      rewrite IH, set_disk_set_disk. unfold omap. cbn [list_omap].
      rewrite Hm. cbn [option_list]. rewrite <- app_assoc. reflexivity.
Qed.

(** C5.  Sanitizing a filename is a total function on strings; its result
    holds neither '/' (code point 47) nor '\' (code point 92), and sanitizing
    a sanitized name gives it back unchanged. *)
Theorem C5_safe_name_total_idempotent (filename : str) :
  slash = [47%N] /\ backslash = [92%N] /\
  (47%N ∉ safe_name filename) /\
  (92%N ∉ safe_name filename) /\
  safe_name (safe_name filename) = safe_name filename.
Proof.
  split; [reflexivity|]. split; [reflexivity|].
  split; [apply safe_name_no_slash|].
  split; [apply safe_name_no_backslash|].
  apply safe_name_fixed;
    [apply safe_name_no_slash | apply safe_name_no_backslash].
Qed.

(** ** The handler, case by case *)

Lemma create_inquiry_spec (env : Env)
    (name email phone zip_city project_type description : str)
    (source : option str) (files : list (UploadFile * disk_answer))
    (w : World) :
  create_inquiry env name email phone zip_city project_type description
    source files w =
  match makedirs env with
  | Fails text => (Raise (Exception text), w)
  | Gives _ =>
      let w1 := set_disk (disk_effects (upload_dir_of env) (attempted files)) w in
      match first_fault files with
      | Some text =>
          (Raise (HTTPException 500%Z (upload_failed ++ take 100 text)), w1)
      | None =>
          match EmailStr env email with
          | Fails text => (Raise (ValidationError text), w1)
          | Gives email' =>
              match insert_one env with
              | Fails text =>
                  (Raise (HTTPException 500%Z
                            (database_failed ++ take 100 text)), w1)
              | Gives inserted_id =>
                  (Return {| id := inserted_id; message := success_message |},
                   set_store
                     (fun s => s ++
                        [(inquiry_collection,
                          built_inquiry name email' phone zip_city
                            project_type description files source)]) w1)
              end
          end
      end
  end.
Proof.
  unfold create_inquiry, upload_dir_of.
  unfold mbind at 1, M_bind, call.
  destruct (makedirs env) as [[]|text]; [|reflexivity].
  cbn [mret M_ret].
  unfold mbind at 1, M_bind. rewrite for_files_spec. cbn [app].
  destruct (first_fault files) as [text|]; [reflexivity|].
  unfold mbind at 1, M_bind, Inquiry_init.
  destruct (EmailStr env email) as [email'|text]; [|reflexivity].
  cbn [mret M_ret]. unfold try_except, mbind, M_bind, create_document.
  destruct (insert_one env) as [inserted_id|text]; reflexivity.
Qed.

(** ** Files that are stored, files that fail *)

Lemma upload_fault_None (fa : UploadFile * disk_answer) :
  upload_fault fa = None ->
  exists name content,
    filename fa.1 = Some name /\ read fa.1 = Gives content /\ fa.2 = Stored.
Proof.
  unfold upload_fault.
  destruct (filename fa.1) as [name|]; [|discriminate].
  destruct (read fa.1) as [content|]; [|discriminate].
  destruct fa.2; try discriminate. eauto.
Qed.

Lemma all_stored (files : list (UploadFile * disk_answer)) :
  Forall (fun fa => upload_fault fa = None) files ->
  first_fault files = None /\ attempted files = files.
Proof.
  induction 1 as [|fa files Hfa _ [IH1 IH2]]; [now split|].
  cbn [first_fault attempted]. rewrite Hfa, IH1, IH2. now split.
Qed.

Lemma first_failure (pre post : list (UploadFile * disk_answer))
    (fa : UploadFile * disk_answer) (text : str) :
  Forall (fun fa => upload_fault fa = None) pre ->
  upload_fault fa = Some text ->
  first_fault (pre ++ fa :: post) = Some text /\
  attempted (pre ++ fa :: post) = pre ++ [fa].
Proof.
  intros Hpre Hfa. induction Hpre as [|fb pre Hfb _ [IH1 IH2]].
  - cbn [app first_fault attempted]. now rewrite Hfa.
  - cbn [app first_fault attempted]. rewrite Hfb, IH1, IH2. now split.
Qed.

Lemma first_fault_None (files : list (UploadFile * disk_answer)) :
  first_fault files = None ->
  Forall (fun fa => upload_fault fa = None) files.
Proof.
  induction files as [|fa files IH]; [constructor|].
  cbn [first_fault]. destruct (upload_fault fa) eqn:Hfa; [discriminate|].
  intros H. constructor; auto.
Qed.

Lemma entries_of_stored (files : list (UploadFile * disk_answer)) :
  Forall (fun fa => upload_fault fa = None) files ->
  Forall2 (fun fa entry => entry_of fa = Some entry) files
    (omap entry_of files).
Proof.
  induction 1 as [|fa files Hfa _ IH]; [constructor|].
  destruct (upload_fault_None fa Hfa) as (name & content & Hn & Hr & Ha).
  unfold omap. cbn [list_omap].
  assert (Hentry : exists m, entry_of fa = Some m).
  { unfold entry_of. rewrite Hn, Hr, Ha. eauto. }
  destruct Hentry as [m Hm]. rewrite Hm. constructor; assumption.
Qed.

Lemma stored_entry (files : list (UploadFile * disk_answer)) (i : nat)
    (f : UploadFile) (a : disk_answer) :
  Forall (fun fa => upload_fault fa = None) files ->
  files !! i = Some (f, a) ->
  exists name content,
    filename f = Some name /\ read f = Gives content /\ a = Stored /\
    omap entry_of files !! i =
      Some {| schemas.filename := safe_name name;
              schemas.content_type :=
                Some (or_str (content_type f) octet_stream);
              schemas.size := Some (len content) |}.
Proof.
  intros Hall Hi.
  assert (Hfa : upload_fault (f, a) = None).
  { rewrite Forall_lookup in Hall. exact (Hall i (f, a) Hi). }
  destruct (upload_fault_None _ Hfa) as (name & content & Hn & Hr & Ha).
  cbn [fst snd] in Hn, Hr, Ha.
  exists name, content. repeat split; try assumption.
  destruct (Forall2_lookup_l _ _ _ _ _ (entries_of_stored files Hall) Hi)
    as (entry & Hentry & Heq).
  rewrite Hentry. f_equal.
  unfold entry_of in Heq. cbn [fst snd] in Heq.
  rewrite Hn, Hr, Ha in Heq. congruence.
Qed.

Lemma create_inquiry_Return (env : Env)
    (name email phone zip_city project_type description : str)
    (source : option str) (files : list (UploadFile * disk_answer))
    (w w' : World) (response : InquiryResponse) :
  create_inquiry env name email phone zip_city project_type description
    source files w = (Return response, w') ->
  exists email' inserted_id : str,
    Forall (fun fa => upload_fault fa = None) files /\
    EmailStr env email = Gives email' /\
    insert_one env = Gives inserted_id /\
    response = {| id := inserted_id; message := success_message |} /\
    w' = set_store
           (fun s => s ++
              [(inquiry_collection,
                built_inquiry name email' phone zip_city project_type
                  description files source)])
           (set_disk (disk_effects (upload_dir_of env) files) w).
Proof.
  rewrite create_inquiry_spec.
  destruct (makedirs env) as [[]|]; [|discriminate]. cbn zeta.
  destruct (first_fault files) eqn:Hfault; [discriminate|].
  apply first_fault_None in Hfault.
  destruct (EmailStr env email) as [email'|]; [|discriminate].
  destruct (insert_one env) as [inserted_id|]; [|discriminate].
  intros [= <- <-]. exists email', inserted_id.
  destruct (all_stored files Hfault) as [_ ->]. repeat split; assumption.
Qed.

(** ** What is on the disk afterwards *)

Lemma disk_effect_keeps (upload_dir : str) (fa : UploadFile * disk_answer)
    (d : gmap str bytes) (p : str) :
  is_Some (d !! p) -> is_Some (disk_effect upload_dir fa d !! p).
Proof.
  intros Hp. unfold disk_effect.
  destruct (filename fa.1) as [name|]; [|assumption].
  destruct (read fa.1) as [content|]; [|assumption].
  destruct fa.2; try assumption;
    (destruct (decide (dest_path upload_dir name = p)) as [->|Hne];
     [rewrite lookup_insert_eq; eauto | now rewrite lookup_insert_ne]).
Qed.

Lemma disk_effects_keeps (upload_dir : str)
    (files : list (UploadFile * disk_answer)) (d : gmap str bytes) (p : str) :
  is_Some (d !! p) -> is_Some (disk_effects upload_dir files d !! p).
Proof.
  unfold disk_effects. revert d.
  induction files as [|fa files IH]; intros d Hp; [assumption|].
  cbn [foldl]. apply IH. now apply disk_effect_keeps.
Qed.

Lemma disk_effects_app (upload_dir : str)
    (l1 l2 : list (UploadFile * disk_answer)) (d : gmap str bytes) :
  disk_effects upload_dir (l1 ++ l2) d =
  disk_effects upload_dir l2 (disk_effects upload_dir l1 d).
Proof. unfold disk_effects. apply foldl_app. Qed.

Lemma disk_effect_stored (upload_dir : str) (f : UploadFile) (name : str)
    (content : bytes) (d : gmap str bytes) :
  filename f = Some name -> read f = Gives content ->
  disk_effect upload_dir (f, Stored) d =
  <[dest_path upload_dir name := content]> d.
Proof. intros Hn Hr. unfold disk_effect. cbn [fst snd]. now rewrite Hn, Hr. Qed.

Lemma stored_on_disk (upload_dir : str)
    (files : list (UploadFile * disk_answer)) (d : gmap str bytes)
    (i : nat) (f : UploadFile) (name : str) (content : bytes) :
  files !! i = Some (f, Stored) ->
  filename f = Some name -> read f = Gives content ->
  is_Some (disk_effects upload_dir files d !! dest_path upload_dir name).
Proof.
  intros Hi Hn Hr.
  destruct (list_elem_of_split_length _ _ _ Hi) as (l1 & l2 & -> & _).
  rewrite disk_effects_app. unfold disk_effects at 1. cbn [foldl].
  apply (disk_effects_keeps upload_dir l2).
  rewrite (disk_effect_stored _ _ _ _ _ Hn Hr), lookup_insert_eq. eauto.
Qed.


(** ** The properties of [create_inquiry] *)



(** C2.  When the files before some file are stored and that file's read,
    open or write raises an exception with text [text] (or the file has no
    filename), the handler raises an HTTPException with status 500 and
    detail "Fehler beim Datei-Upload: " followed by the first 100 characters
    of [text].  The files after it play no part: the outcome and the final
    world are the same whatever follows the failing file.  The store is
    unchanged.  The disk is the one the earlier files left, touched at most
    by the failing step itself, and every earlier file still has a file
    under its path. *)
Theorem C2_upload_failure_aborts (env : Env)
    (name email phone zip_city project_type description : str)
    (source : option str) (pre post : list (UploadFile * disk_answer))
    (fa : UploadFile * disk_answer) (text : str) (w : World) :
  makedirs env = Gives tt ->
  Forall (fun fb => upload_fault fb = None) pre ->
  upload_fault fa = Some text ->
  exists w' : World,
    create_inquiry env name email phone zip_city project_type description
      source (pre ++ fa :: post) w
    = (Raise (HTTPException 500%Z (upload_failed ++ take 100 text)), w') /\
    upload_failed = lit "Fehler beim Datei-Upload: " /\
    (forall post' : list (UploadFile * disk_answer),
       create_inquiry env name email phone zip_city project_type description
         source (pre ++ fa :: post') w
       = create_inquiry env name email phone zip_city project_type
           description source (pre ++ fa :: post) w) /\
    store w' = store w /\
    disk w' = disk_effect (upload_dir_of env) fa
                (disk_effects (upload_dir_of env) pre (disk w)) /\
    forall (i : nat) (f : UploadFile) (a : disk_answer),
      pre !! i = Some (f, a) ->
      exists fname : str,
        filename f = Some fname /\
        is_Some (disk w' !! dest_path (upload_dir_of env) fname).
Proof.
  intros Hdir Hpre Hfa.
  assert (Hrun : forall post',
    create_inquiry env name email phone zip_city project_type description
      source (pre ++ fa :: post') w
    = (Raise (HTTPException 500%Z (upload_failed ++ take 100 text)),
       set_disk (disk_effects (upload_dir_of env) (pre ++ [fa])) w)).
  { intros post'.
    destruct (first_failure pre post' fa text Hpre Hfa) as [Hfirst Hatt].
    rewrite create_inquiry_spec, Hdir. cbn zeta.
    now rewrite Hfirst, Hatt. }
  eexists. split; [apply Hrun|].
  split; [reflexivity|].
  split; [intros post'; now rewrite !Hrun|].
  split; [reflexivity|].
  cbn [disk set_disk]. rewrite disk_effects_app.
  split; [reflexivity|].
  intros i f a Hi.
  assert (Hf : upload_fault (f, a) = None).
  { rewrite Forall_lookup in Hpre. exact (Hpre i (f, a) Hi). }
  destruct (upload_fault_None _ Hf) as (fname & content & Hn & Hr & Ha).
  cbn [fst snd] in Hn, Hr, Ha. subst a.
  exists fname. split; [exact Hn|].
  apply (disk_effects_keeps _ [fa]).
  exact (stored_on_disk _ pre (disk w) i f fname content Hi Hn Hr).
Qed.

Lemma C2_witness :
  makedirs sample_env = Gives tt /\
  Forall (fun fb => upload_fault fb = None) [(plan_pdf, Stored)] /\
  upload_fault (no_header, disk_full)
    = Some (lit "[Errno 28] No space left on device") /\
  exists w' : World,
    max_mustermann (lit "max@example.com") (lit "Max Mustermann") None
      sample_env
      [(plan_pdf, Stored); (no_header, disk_full); (untyped_bin, Stored)]
      empty_world
    = (Raise (HTTPException 500%Z
                (lit "Fehler beim Datei-Upload: [Errno 28] No space left on device")),
       w') /\
    store w' = [] /\
    size (disk w') = 2%nat.
Proof.
  assert (H1 : makedirs sample_env = Gives tt) by reflexivity.
  assert (H2 : Forall (fun fb => upload_fault fb = None) [(plan_pdf, Stored)])
    by (repeat constructor).
  assert (H3 : upload_fault (no_header, disk_full)
               = Some (lit "[Errno 28] No space left on device"))
    by reflexivity.
  repeat (split; [assumption|]).
  destruct (C2_upload_failure_aborts sample_env
              (lit "Max Mustermann") (lit "max@example.com")
              (lit "0123456789") (lit "12345 Berlin") (lit "Neubau")
              (lit "Einfamilienhaus") None
              [(plan_pdf, Stored)] [(untyped_bin, Stored)]
              (no_header, disk_full) _ empty_world H1 H2 H3)
    as (w' & Hrun & _ & _ & Hstore & Hdisk & _).
  exists w'. split; [exact Hrun|]. split; [exact Hstore|].
  rewrite Hdisk. vm_compute. reflexivity.
Defined.

(** C3.  When the files are stored and the address is accepted but the
    insert fails with text [text], the handler raises an HTTPException with
    status 500 whose detail is "Datenbankfehler: " followed by the first 100
    characters of [text]: an error the framework answers, not a success
    response.  The store is unchanged, so no record refers to the files,
    and the files written for the request are still on the disk. *)
Theorem C3_store_failure (env : Env)
    (name email phone zip_city project_type description : str)
    (source : option str) (files : list (UploadFile * disk_answer))
    (w : World) (email' text : str) :
  makedirs env = Gives tt ->
  Forall (fun fa => upload_fault fa = None) files ->
  EmailStr env email = Gives email' ->
  insert_one env = Fails text ->
  exists (detail : str) (w' : World),
    create_inquiry env name email phone zip_city project_type description
      source files w
    = (Raise (HTTPException 500%Z detail), w') /\
    detail = database_failed ++ take 100 text /\
    startswith detail (lit "Datenbankfehler:") = true /\
    store w' = store w /\
    disk w' = disk_effects (upload_dir_of env) files (disk w) /\
    forall (i : nat) (f : UploadFile) (a : disk_answer),
      files !! i = Some (f, a) ->
      exists fname : str,
        filename f = Some fname /\
        is_Some (disk w' !! dest_path (upload_dir_of env) fname).
Proof.
  intros Hdir Hfiles Hemail Hinsert.
  destruct (all_stored files Hfiles) as [Hnone Hall].
  eexists; eexists. split.
  { rewrite create_inquiry_spec, Hdir. cbn zeta.
    rewrite Hnone, Hemail, Hinsert, Hall. reflexivity. }
  split; [reflexivity|]. split; [reflexivity|]. split; [reflexivity|].
  cbn [disk set_disk]. split; [reflexivity|].
  intros i f a Hi.
  destruct (stored_entry files i f a Hfiles Hi)
    as (fname & content & Hn & Hr & Ha & _).
  subst a. exists fname. split; [exact Hn|].
  exact (stored_on_disk _ files (disk w) i f fname content Hi Hn Hr).
Qed.

Lemma C3_witness :
  makedirs unreachable_env = Gives tt /\
  Forall (fun fa => upload_fault fa = None) [(plan_pdf, Stored)] /\
  EmailStr unreachable_env (lit "max@example.com")
    = Gives (lit "max@example.com") /\
  (exists text, insert_one unreachable_env = Fails text /\
                length text = 127%nat) /\
  exists (detail : str) (w' : World),
    max_mustermann (lit "max@example.com") (lit "Max Mustermann") None
      unreachable_env [(plan_pdf, Stored)] empty_world
    = (Raise (HTTPException 500%Z detail), w') /\
    length detail = 117%nat /\
    store w' = [] /\
    is_Some (disk w' !! lit "/srv/app/uploads/plan.pdf").
Proof.
  assert (H1 : makedirs unreachable_env = Gives tt) by reflexivity.
  assert (H2 : Forall (fun fa => upload_fault fa = None) [(plan_pdf, Stored)])
    by (repeat constructor).
  assert (H3 : EmailStr unreachable_env (lit "max@example.com")
               = Gives (lit "max@example.com")) by reflexivity.
  split; [assumption|]. split; [assumption|]. split; [assumption|].
  split; [eexists; split; reflexivity|].
  destruct (C3_store_failure unreachable_env
              (lit "Max Mustermann") (lit "max@example.com")
              (lit "0123456789") (lit "12345 Berlin") (lit "Neubau")
              (lit "Einfamilienhaus") None
              [(plan_pdf, Stored)] empty_world _ _ H1 H2 H3 eq_refl)
    as (detail & w' & Hrun & Hdetail & _ & Hstore & _ & Hfiles).
  exists detail, w'. split; [exact Hrun|].
  split; [rewrite Hdetail; reflexivity|]. split; [exact Hstore|].
  destruct (Hfiles 0%nat plan_pdf Stored eq_refl) as (fname & Hn & Hon).
  injection Hn as <-. exact Hon.
Defined.

(** C4.  When [EmailStr] rejects the address, the request fails (the
    handler raises an exception, whatever the files and the platform do)
    and the store is left as it was: no record is persisted. *)
Theorem C4_invalid_email_not_persisted (env : Env)
    (name email phone zip_city project_type description : str)
    (source : option str) (files : list (UploadFile * disk_answer))
    (w : World) (text : str) :
  EmailStr env email = Fails text ->
  exists (e : exn) (w' : World),
    create_inquiry env name email phone zip_city project_type description
      source files w = (Raise e, w') /\
    store w' = store w.
Proof.
  intros Hemail. rewrite create_inquiry_spec, Hemail.
  destruct (makedirs env) as [[]|]; [|eauto]. cbn zeta.
  destruct (first_fault files); eauto.
Qed.

Lemma C4_witness :
  EmailStr sample_env (lit "not-an-email")
    = Fails (lit "value is not a valid email address") /\
  exists (e : exn) (w' : World),
    max_mustermann (lit "not-an-email") (lit "Max Mustermann") None
      sample_env [(plan_pdf, Stored)] empty_world = (Raise e, w') /\
    store w' = [].
Proof.
  split; [reflexivity|].
  exact (C4_invalid_email_not_persisted sample_env
           (lit "Max Mustermann") (lit "not-an-email")
           (lit "0123456789") (lit "12345 Berlin") (lit "Neubau")
           (lit "Einfamilienhaus") None [(plan_pdf, Stored)] empty_world
           _ eq_refl).
Defined.

(** C6.  After a successful submission the store holds one more record, in
    the collection "inquiry", and its [source] is the supplied value when
    one is supplied and is not empty, and "website" when the field is
    absent or is the empty string. *)
Theorem C6_source_default (env : Env)
    (name email phone zip_city project_type description : str)
    (source : option str) (files : list (UploadFile * disk_answer))
    (w w' : World) (response : InquiryResponse) :
  create_inquiry env name email phone zip_city project_type description
    source files w = (Return response, w') ->
  exists record : schemas.Inquiry,
    store w' = store w ++ [(lit "inquiry", record)] /\
    (forall s : str, source = Some s -> s <> [] ->
       schemas.source record = Some s) /\
    (source = None \/ source = Some [] ->
       schemas.source record = Some (lit "website")).
Proof.
  intros Hrun.
  destruct (create_inquiry_Return _ _ _ _ _ _ _ _ _ _ _ _ Hrun)
    as (email' & inserted_id & _ & _ & _ & _ & ->).
  eexists. split; [reflexivity|].
  cbn [built_inquiry schemas.source]. split.
  - intros s -> Hs. destruct s; [contradiction|reflexivity].
  - intros [-> | ->]; reflexivity.
Qed.

Lemma C6_witness :
  exists (response : InquiryResponse) (w' : World),
    max_mustermann (lit "max@example.com") (lit "Max Mustermann")
      (Some (lit "kontakt")) sample_env [] empty_world
    = (Return response, w') /\
    exists record : schemas.Inquiry,
      store w' = [(lit "inquiry", record)] /\
      schemas.source record = Some (lit "kontakt").
Proof.
  eexists; eexists. split; [reflexivity|].
  destruct (C6_source_default sample_env
              (lit "Max Mustermann") (lit "max@example.com")
              (lit "0123456789") (lit "12345 Berlin") (lit "Neubau")
              (lit "Einfamilienhaus") (Some (lit "kontakt")) [] empty_world
              _ _ eq_refl)
    as (record & Hstore & Hsupplied & _).
  exists record. split; [exact Hstore|].
  apply Hsupplied; [reflexivity|discriminate].
Defined.



(** C7, at a concrete input.  An upload whose declared content type is the
    empty string is recorded with "application/octet-stream", not with the
    content type it declares. *)
Lemma C7_counterexample :
  let run :=
    max_mustermann (lit "max@example.com") (lit "Max Mustermann") None
      sample_env [(untyped_bin, Stored)] empty_world in
  content_type untyped_bin = Some [] /\
  fst run
  = Return {| id := lit "65a1f0c2d4e5"; message := success_message |} /\
  map (fun cr => (cr.1, map schemas.content_type (schemas.files cr.2)))
    (store (snd run))
  = [(lit "inquiry", [Some (lit "application/octet-stream")])] /\
  Some (lit "application/octet-stream") <> content_type untyped_bin.
Proof.
  vm_compute. repeat split. discriminate.
Qed.

(** C7, amended.  After a successful submission the record's [files] has
    one entry per uploaded file, in order, and the entry's [content_type]
    is the content type the upload declares when it declares one that is
    not empty, and "application/octet-stream" when it declares none or
    declares the empty string. *)
Theorem C7_content_type_default (env : Env)
    (name email phone zip_city project_type description : str)
    (source : option str) (files : list (UploadFile * disk_answer))
    (w w' : World) (response : InquiryResponse) :
  create_inquiry env name email phone zip_city project_type description
    source files w = (Return response, w') ->
  exists record : schemas.Inquiry,
    store w' = store w ++ [(lit "inquiry", record)] /\
    length (schemas.files record) = length files /\
    forall (i : nat) (f : UploadFile) (a : disk_answer),
      files !! i = Some (f, a) ->
      exists entry : schemas.InquiryFile,
        schemas.files record !! i = Some entry /\
        (forall ct : str, content_type f = Some ct -> ct <> [] ->
           schemas.content_type entry = Some ct) /\
        (content_type f = None \/ content_type f = Some [] ->
           schemas.content_type entry = Some (lit "application/octet-stream")).
Proof.
  intros Hrun.
  destruct (create_inquiry_Return _ _ _ _ _ _ _ _ _ _ _ _ Hrun)
    as (email' & inserted_id & Hfiles & _ & _ & _ & ->).
  eexists. split; [reflexivity|].
  cbn [built_inquiry schemas.files]. split.
  { symmetry. exact (Forall2_length _ _ _ (entries_of_stored files Hfiles)). }
  intros i f a Hi.
  destruct (stored_entry files i f a Hfiles Hi)
    as (fname & content & _ & _ & _ & Hentry).
  eexists. split; [exact Hentry|].
  cbn [schemas.content_type]. split.
  - intros ct -> Hct. destruct ct; [contradiction|reflexivity].
  - intros [-> | ->]; reflexivity.
Qed.

Lemma C7_witness :
  exists (response : InquiryResponse) (w' : World),
    max_mustermann (lit "max@example.com") (lit "Max Mustermann") None
      sample_env [(plan_pdf, Stored); (no_header, Stored)] empty_world
    = (Return response, w') /\
    exists (record : schemas.Inquiry) (e0 e1 : schemas.InquiryFile),
      store w' = [(lit "inquiry", record)] /\
      schemas.files record !! 0%nat = Some e0 /\
      schemas.content_type e0 = Some (lit "application/pdf") /\
      schemas.files record !! 1%nat = Some e1 /\
      schemas.content_type e1 = Some (lit "application/octet-stream").
Proof.
  eexists; eexists. split; [reflexivity|].
  destruct (C7_content_type_default sample_env
              (lit "Max Mustermann") (lit "max@example.com")
              (lit "0123456789") (lit "12345 Berlin") (lit "Neubau")
              (lit "Einfamilienhaus") None
              [(plan_pdf, Stored); (no_header, Stored)] empty_world
              _ _ eq_refl)
    as (record & Hstore & _ & Hentries).
  destruct (Hentries 0%nat plan_pdf Stored eq_refl) as (e0 & H0 & Hdecl & _).
  destruct (Hentries 1%nat no_header Stored eq_refl) as (e1 & H1 & _ & Hnone).
  exists record, e0, e1. split; [exact Hstore|].
  split; [exact H0|]. split; [apply Hdecl; [reflexivity|discriminate]|].
  split; [exact H1|]. apply Hnone. now left.
Defined.






(** ** Further properties of [create_inquiry] *)

Lemma create_inquiry_disk (env : Env)
    (name email phone zip_city project_type description : str)
    (source : option str) (files : list (UploadFile * disk_answer))
    (w : World) :
  disk (snd (create_inquiry env name email phone zip_city project_type
               description source files w))
  = match makedirs env with
    | Gives _ => disk_effects (upload_dir_of env) (attempted files) (disk w)
    | Fails _ => disk w
    end.
Proof.
  rewrite create_inquiry_spec.
  destruct (makedirs env) as [[]|]; [|reflexivity]. cbn zeta.
  destruct (first_fault files); [reflexivity|].
  destruct (EmailStr env email); [|reflexivity].
  destruct (insert_one env); reflexivity.
Qed.

Lemma disk_effect_effect_at (upload_dir : str) (fa : UploadFile * disk_answer)
    (d : gmap str bytes) :
  disk_effect upload_dir fa d
  = match effect_at upload_dir fa with
    | Some (p, content) => <[p := content]> d
    | None => d
    end.
Proof.
  unfold disk_effect, effect_at.
  destruct (filename fa.1); [|reflexivity].
  destruct (read fa.1); [|reflexivity].
  destruct fa.2; reflexivity.
Qed.

Lemma disk_effects_lookup (upload_dir : str)
    (files : list (UploadFile * disk_answer)) (d : gmap str bytes)
    (path : str) :
  disk_effects upload_dir files d !! path
  = match last_write upload_dir files path with
    | Some content => Some content
    | None => d !! path
    end.
Proof.
  unfold disk_effects. revert d.
  induction files as [|fa files IH]; intros d; [reflexivity|].
  cbn [foldl last_write]. rewrite IH.
  destruct (last_write upload_dir files path); [reflexivity|].
  rewrite disk_effect_effect_at.
  destruct (effect_at upload_dir fa) as [[p content]|]; [|reflexivity].
  destruct (decide (p = path)) as [->|Hne].
  - apply lookup_insert_eq.
  - now apply lookup_insert_ne.
Qed.

Lemma attempted_subset (files : list (UploadFile * disk_answer))
    (fa : UploadFile * disk_answer) :
  fa ∈ attempted files -> fa ∈ files.
Proof.
  induction files as [|fb files IH]; cbn [attempted]; [auto|].
  intros Hin. apply elem_of_cons in Hin as [->|Hin]; [left|].
  right. destruct (upload_fault fb); [|auto].
  now apply elem_of_nil in Hin.
Qed.

Lemma last_write_untouched (upload_dir : str)
    (files : list (UploadFile * disk_answer)) (path : str) :
  (forall fa name, fa ∈ files -> filename fa.1 = Some name ->
     dest_path upload_dir name <> path) ->
  last_write upload_dir files path = None.
Proof.
  induction files as [|fa files IH]; intros Hfree; [reflexivity|].
  cbn [last_write]. rewrite IH.
  2:{ intros fb name Hin. apply Hfree. now right. }
  destruct (effect_at upload_dir fa) as [[p content]|] eqn:Heff;
    [|reflexivity].
  destruct (decide (p = path)) as [Heq|]; [|reflexivity].
  exfalso. unfold effect_at in Heff.
  destruct (filename fa.1) as [name|] eqn:Hn; [|discriminate].
  apply (Hfree fa name); [left|exact Hn|].
  destruct (read fa.1); [|discriminate].
  destruct fa.2; try discriminate; injection Heff as <- _; exact Heq.
Qed.

(** X1.  When [os.makedirs] raises, its exception leaves the handler as it
    is, before any file is looked at: nothing is written and nothing is
    stored. *)
Theorem X1_makedirs_failure_propagates (env : Env)
    (name email phone zip_city project_type description : str)
    (source : option str) (files : list (UploadFile * disk_answer))
    (w : World) (text : str) :
  makedirs env = Fails text ->
  create_inquiry env name email phone zip_city project_type description
    source files w
  = (Raise (Exception text), w).
Proof. intros Hdir. now rewrite create_inquiry_spec, Hdir. Qed.

Lemma X1_witness :
  makedirs readonly_env
    = Fails (lit "[Errno 30] Read-only file system: '/srv/app/uploads'") /\
  max_mustermann (lit "max@example.com") (lit "Max Mustermann") None
    readonly_env [(plan_pdf, Stored)] empty_world
  = (Raise (Exception
              (lit "[Errno 30] Read-only file system: '/srv/app/uploads'")),
     empty_world).
Proof.
  split; [reflexivity|].
  exact (X1_makedirs_failure_propagates readonly_env
           (lit "Max Mustermann") (lit "max@example.com")
           (lit "0123456789") (lit "12345 Berlin") (lit "Neubau")
           (lit "Einfamilienhaus") None [(plan_pdf, Stored)] empty_world
           _ eq_refl).
Defined.

(** X2.  An upload without a filename fails at [f.filename.replace]: when
    the files before it are stored, the request ends with the upload
    failure whose detail names the missing attribute, untruncated; that
    upload is neither read nor written, whatever the disk would answer, and
    nothing is stored. *)
Theorem X2_missing_filename (env : Env)
    (name email phone zip_city project_type description : str)
    (source : option str) (pre post : list (UploadFile * disk_answer))
    (f : UploadFile) (a : disk_answer) (w : World) :
  makedirs env = Gives tt ->
  Forall (fun fb => upload_fault fb = None) pre ->
  filename f = None ->
  create_inquiry env name email phone zip_city project_type description
    source (pre ++ (f, a) :: post) w
  = (Raise (HTTPException 500%Z
              (lit "Fehler beim Datei-Upload: 'NoneType' object has no attribute 'replace'")),
     set_disk (disk_effects (upload_dir_of env) pre) w).
Proof.
  intros Hdir Hpre Hname.
  assert (Hfault : upload_fault (f, a) = Some no_replace).
  { unfold upload_fault. cbn [fst]. now rewrite Hname. }
  destruct (first_failure pre post (f, a) no_replace Hpre Hfault)
    as [Hfirst Hatt].
  rewrite create_inquiry_spec, Hdir. cbn zeta. rewrite Hfirst, Hatt.
  f_equal. destruct w as [d s]. unfold set_disk. cbn [disk store]. f_equal.
  rewrite disk_effects_app. unfold disk_effects at 1. cbn [foldl].
  unfold disk_effect. cbn [fst]. now rewrite Hname.
Qed.

Lemma X2_witness :
  makedirs sample_env = Gives tt /\
  Forall (fun fb => upload_fault fb = None) [(plan_pdf, Stored)] /\
  filename nameless = None /\
  exists w' : World,
    max_mustermann (lit "max@example.com") (lit "Max Mustermann") None
      sample_env [(plan_pdf, Stored); (nameless, Stored); (no_header, Stored)]
      empty_world
    = (Raise (HTTPException 500%Z
                (lit "Fehler beim Datei-Upload: 'NoneType' object has no attribute 'replace'")),
       w') /\
    size (disk w') = 1%nat /\ store w' = [].
Proof.
  assert (H1 : makedirs sample_env = Gives tt) by reflexivity.
  assert (H2 : Forall (fun fb => upload_fault fb = None) [(plan_pdf, Stored)])
    by (repeat constructor).
  assert (H3 : filename nameless = None) by reflexivity.
  repeat (split; [assumption|]).
  eexists. split.
  { exact (X2_missing_filename sample_env
             (lit "Max Mustermann") (lit "max@example.com")
             (lit "0123456789") (lit "12345 Berlin") (lit "Neubau")
             (lit "Einfamilienhaus") None
             [(plan_pdf, Stored)] [(no_header, Stored)] nameless Stored
             empty_world H1 H2 H3). }
  split; [vm_compute; reflexivity | reflexivity].
Defined.

(** X3.  The handler returns a response exactly when the upload directory
    is ensured, every file is read and written without an exception, the
    address is accepted and the insert succeeds. *)
Theorem X3_success_iff (env : Env)
    (name email phone zip_city project_type description : str)
    (source : option str) (files : list (UploadFile * disk_answer))
    (w : World) :
  (exists response : InquiryResponse,
     fst (create_inquiry env name email phone zip_city project_type
            description source files w) = Return response)
  <->
  (makedirs env = Gives tt /\
   Forall (fun fa => upload_fault fa = None) files /\
   (exists email' : str, EmailStr env email = Gives email') /\
   (exists inserted_id : str, insert_one env = Gives inserted_id)).
Proof.
  rewrite create_inquiry_spec. split.
  - intros [response Hrun].
    destruct (makedirs env) as [[]|]; [|discriminate]. cbn zeta in Hrun.
    destruct (first_fault files) eqn:Hfault; [discriminate|].
    destruct (EmailStr env email); [|discriminate].
    destruct (insert_one env); [|discriminate].
    split; [reflexivity|]. split; [now apply first_fault_None|]. eauto.
  - intros (Hdir & Hfiles & [email' Hemail] & [inserted_id Hinsert]).
    destruct (all_stored files Hfiles) as [Hnone _].
    rewrite Hdir. cbn zeta. rewrite Hnone, Hemail, Hinsert. cbn [fst]. eauto.
Qed.

(** X4.  Whatever the outcome, the handler removes no file: a path that
    held a file before the request holds one after it; and a path that is
    the destination of none of the request's files holds what it held
    before. *)
Theorem X4_disk_frame (env : Env)
    (name email phone zip_city project_type description : str)
    (source : option str) (files : list (UploadFile * disk_answer))
    (w : World) (path : str) :
  let w' := snd (create_inquiry env name email phone zip_city project_type
                   description source files w) in
  (is_Some (disk w !! path) -> is_Some (disk w' !! path)) /\
  ((forall fa fname, fa ∈ files -> filename fa.1 = Some fname ->
      dest_path (upload_dir_of env) fname <> path) ->
   disk w' !! path = disk w !! path).
Proof.
  cbn zeta. rewrite create_inquiry_disk.
  destruct (makedirs env) as [[]|]; [|now split]. split.
  - apply disk_effects_keeps.
  - intros Hfree. rewrite disk_effects_lookup, last_write_untouched;
      [reflexivity|].
    intros fa fname Hin. apply Hfree. now apply attempted_subset.
Qed.

Lemma X4_witness :
  let w := {| disk := {[ lit "/srv/app/uploads/old.txt" := [Byte.x6f] ]};
              store := [] |} in
  let w' := snd (max_mustermann (lit "not-an-email") (lit "Max Mustermann")
                   None sample_env [(plan_pdf, Stored)] w) in
  is_Some (disk w !! lit "/srv/app/uploads/old.txt") /\
  is_Some (disk w' !! lit "/srv/app/uploads/old.txt") /\
  disk w' !! lit "/srv/app/uploads/old.txt"
  = disk w !! lit "/srv/app/uploads/old.txt".
Proof.
  cbn zeta.
  assert (H1 : is_Some
    (({[ lit "/srv/app/uploads/old.txt" := [Byte.x6f] ]} : gmap str bytes)
       !! lit "/srv/app/uploads/old.txt")) by (vm_compute; eauto).
  split; [exact H1|].
  destruct (X4_disk_frame sample_env
              (lit "Max Mustermann") (lit "not-an-email")
              (lit "0123456789") (lit "12345 Berlin") (lit "Neubau")
              (lit "Einfamilienhaus") None [(plan_pdf, Stored)]
              {| disk := {[ lit "/srv/app/uploads/old.txt" := [Byte.x6f] ]};
                 store := [] |}
              (lit "/srv/app/uploads/old.txt")) as [Hkeep Hframe].
  split; [exact (Hkeep H1)|].
  apply Hframe. intros fa fname Hin Hname.
  apply list_elem_of_singleton in Hin. subst fa.
  injection Hname as <-. vm_compute. discriminate.
Defined.

(** X5.  The handler never removes or changes a stored record and inserts
    at most one: when it returns a response the store has gained exactly
    one record, in the collection "inquiry"; in every other outcome the
    store is as it was. *)
Theorem X5_store_grows_by_at_most_one (env : Env)
    (name email phone zip_city project_type description : str)
    (source : option str) (files : list (UploadFile * disk_answer))
    (w : World) :
  match create_inquiry env name email phone zip_city project_type
          description source files w with
  | (Return _, w') =>
      exists record : schemas.Inquiry,
        store w' = store w ++ [(lit "inquiry", record)]
  | (Raise _, w') => store w' = store w
  end.
Proof.
  rewrite create_inquiry_spec.
  destruct (makedirs env) as [[]|]; [|reflexivity]. cbn zeta.
  destruct (first_fault files); [reflexivity|].
  destruct (EmailStr env email); [|reflexivity].
  destruct (insert_one env); [|reflexivity].
  eexists. reflexivity.
Qed.

Lemma or_str_nonempty (x : option str) (default : str) :
  default <> [] -> or_str x default <> [].
Proof. intros Hd. destruct x as [[|c s]|]; cbn; [assumption|discriminate|assumption]. Qed.

(** X6.  Every file entry of a record the handler inserts is well formed:
    its filename holds neither '/' nor '\', its content type is present and
    not empty, and its size is present and not negative. *)
Theorem X6_entries_well_formed (env : Env)
    (name email phone zip_city project_type description : str)
    (source : option str) (files : list (UploadFile * disk_answer))
    (w w' : World) (response : InquiryResponse) :
  create_inquiry env name email phone zip_city project_type description
    source files w = (Return response, w') ->
  exists record : schemas.Inquiry,
    store w' = store w ++ [(lit "inquiry", record)] /\
    forall entry : schemas.InquiryFile,
      entry ∈ schemas.files record ->
      (47%N ∉ schemas.filename entry) /\
      (92%N ∉ schemas.filename entry) /\
      (exists ct : str, schemas.content_type entry = Some ct /\ ct <> []) /\
      (exists n : Z, schemas.size entry = Some n /\ (0 <= n)%Z).
Proof.
  intros Hrun.
  destruct (create_inquiry_Return _ _ _ _ _ _ _ _ _ _ _ _ Hrun)
    as (email' & inserted_id & _ & _ & _ & _ & ->).
  eexists. split; [reflexivity|].
  cbn [built_inquiry schemas.files]. intros entry Hin.
  apply list_elem_of_omap in Hin as (fa & _ & Hentry).
  unfold entry_of in Hentry.
  destruct (filename fa.1) as [fname|]; [|discriminate].
  destruct (read fa.1) as [content|]; [|discriminate].
  destruct fa.2; try discriminate. injection Hentry as <-.
  cbn [schemas.filename schemas.content_type schemas.size].
  split; [apply safe_name_no_slash|].
  split; [apply safe_name_no_backslash|]. split.
  - eexists. split; [reflexivity|]. apply or_str_nonempty. discriminate.
  - eexists. split; [reflexivity|]. unfold len. lia.
Qed.

Lemma X6_witness :
  exists (response : InquiryResponse) (w' : World),
    max_mustermann (lit "max@example.com") (lit "Max Mustermann") None
      sample_env [(untyped_bin, Stored)] empty_world
    = (Return response, w') /\
    exists record : schemas.Inquiry,
      store w' = [(lit "inquiry", record)] /\
      forall entry : schemas.InquiryFile,
        entry ∈ schemas.files record ->
        (47%N ∉ schemas.filename entry) /\
        (92%N ∉ schemas.filename entry) /\
        (exists ct : str, schemas.content_type entry = Some ct /\ ct <> []) /\
        (exists n : Z, schemas.size entry = Some n /\ (0 <= n)%Z).
Proof.
  eexists; eexists. split; [reflexivity|].
  exact (X6_entries_well_formed sample_env
           (lit "Max Mustermann") (lit "max@example.com")
           (lit "0123456789") (lit "12345 Berlin") (lit "Neubau")
           (lit "Einfamilienhaus") None [(untyped_bin, Stored)] empty_world
           _ _ eq_refl).
Defined.

Lemma startswith_slash_absent (s : str) :
  47%N ∉ s -> startswith s slash = false.
Proof.
  destruct s as [|c s]; [reflexivity|]. intros Hs.
  apply not_elem_of_cons in Hs as [Hc _].
  change (startswith (c :: s) slash) with ((c =? 47)%N && true).
  destruct (N.eqb_spec c 47); [congruence|reflexivity].
Qed.

Lemma endswith_sep_snoc (s : str) (c : char) :
  endswith_sep (s ++ [c]) = (c =? 47)%N.
Proof. unfold endswith_sep. now rewrite last_snoc. Qed.

Lemma upload_dir_of_cases (env : Env) :
  upload_dir_of env = getcwd env ++ lit "uploads" \/
  upload_dir_of env = getcwd env ++ lit "/uploads".
Proof.
  unfold upload_dir_of, path_join.
  change (startswith (lit "uploads") slash) with false. cbn match.
  destruct (getcwd env) as [|c s]; [now left|].
  destruct (endswith_sep (c :: s)); [now left | now right].
Qed.

(** X7.  Every file is written directly inside the upload directory: its
    destination is the upload directory, one separator, and the sanitized
    name, which holds no separator.  The upload directory itself is the
    working directory followed by "uploads", with a separator between them
    unless the working directory is empty or ends with one. *)
Theorem X7_destination_inside_upload_dir (env : Env) (fname : str) :
  dest_path (upload_dir_of env) fname
  = upload_dir_of env ++ lit "/" ++ safe_name fname /\
  (47%N ∉ safe_name fname) /\
  (upload_dir_of env
   = if match getcwd env with [] => true | _ :: _ => endswith_sep (getcwd env) end
     then getcwd env ++ lit "uploads"
     else getcwd env ++ lit "/uploads").
Proof.
  split; [|split; [apply safe_name_no_slash|]].
  - unfold dest_path, path_join.
    rewrite (startswith_slash_absent _ (safe_name_no_slash fname)).
    assert (Hdir : exists s, upload_dir_of env = s ++ [115%N]).
    { destruct (upload_dir_of_cases env) as [-> | ->].
      - exists (getcwd env ++ lit "upload").
        rewrite <- app_assoc. reflexivity.
      - exists (getcwd env ++ lit "/upload").
        rewrite <- app_assoc. reflexivity. }
    destruct Hdir as [s Hs]. rewrite Hs.
    destruct (s ++ [115%N]) as [|c t] eqn:Hst.
    { now destruct s. }
    rewrite <- Hst, endswith_sep_snoc. reflexivity.
  - unfold upload_dir_of, path_join.
    change (startswith (lit "uploads") slash) with false. cbn match.
    destruct (getcwd env) as [|c s]; [reflexivity|].
    destruct (endswith_sep (c :: s)); reflexivity.
Qed.



Lemma disk_effects_idempotent (upload_dir : str)
    (files : list (UploadFile * disk_answer)) (d : gmap str bytes) :
  disk_effects upload_dir files (disk_effects upload_dir files d)
  = disk_effects upload_dir files d.
Proof.
  apply map_eq. intros path. rewrite !disk_effects_lookup.
  now destruct (last_write upload_dir files path).
Qed.

(** X9.  Nothing deduplicates submissions.  When a request has succeeded
    and the same fields and files are submitted again, with the store
    answering a new identifier, the second request succeeds as well: the
    store then holds the same record twice, and the disk is exactly as the
    first request left it. *)
Theorem X9_resubmission (env env2 : Env)
    (name email phone zip_city project_type description : str)
    (source : option str) (files : list (UploadFile * disk_answer))
    (w w1 : World) (response : InquiryResponse) (id2 : str) :
  create_inquiry env name email phone zip_city project_type description
    source files w = (Return response, w1) ->
  getcwd env2 = getcwd env ->
  makedirs env2 = Gives tt ->
  EmailStr env2 email = EmailStr env email ->
  insert_one env2 = Gives id2 ->
  exists (record : schemas.Inquiry) (w2 : World),
    create_inquiry env2 name email phone zip_city project_type description
      source files w1
    = (Return {| id := id2; message := success_message |}, w2) /\
    disk w2 = disk w1 /\
    store w2
    = store w ++ [(lit "inquiry", record); (lit "inquiry", record)].
Proof.
  intros Hrun Hcwd Hdir Hemail Hinsert.
  destruct (create_inquiry_Return _ _ _ _ _ _ _ _ _ _ _ _ Hrun)
    as (email' & inserted_id & Hfiles & Hemail1 & _ & _ & ->).
  destruct (all_stored files Hfiles) as [Hnone Hall].
  assert (Hupload : upload_dir_of env2 = upload_dir_of env).
  { unfold upload_dir_of. now rewrite Hcwd. }
  do 2 eexists. split.
  { rewrite create_inquiry_spec, Hdir. cbn zeta.
    rewrite Hnone, Hemail, Hemail1, Hinsert, Hall, Hupload. reflexivity. }
  cbn [store disk set_store set_disk]. split.
  - apply disk_effects_idempotent.
  - rewrite <- app_assoc. reflexivity.
Qed.

Lemma X9_witness :
  exists (response : InquiryResponse) (w1 : World),
    max_mustermann (lit "max@example.com") (lit "Max Mustermann") None
      sample_env [(plan_pdf, Stored)] empty_world
    = (Return response, w1) /\
    getcwd second_env = getcwd sample_env /\
    makedirs second_env = Gives tt /\
    EmailStr second_env (lit "max@example.com")
      = EmailStr sample_env (lit "max@example.com") /\
    insert_one second_env = Gives (lit "65a1f0c2d4e6") /\
    exists (record : schemas.Inquiry) (w2 : World),
      max_mustermann (lit "max@example.com") (lit "Max Mustermann") None
        second_env [(plan_pdf, Stored)] w1
      = (Return {| id := lit "65a1f0c2d4e6"; message := success_message |},
         w2) /\
      disk w2 = disk w1 /\
      store w2 = [(lit "inquiry", record); (lit "inquiry", record)].
Proof.
  eexists; eexists. split; [reflexivity|].
  do 4 (split; [reflexivity|]).
  exact (X9_resubmission sample_env second_env
           (lit "Max Mustermann") (lit "max@example.com")
           (lit "0123456789") (lit "12345 Berlin") (lit "Neubau")
           (lit "Einfamilienhaus") None [(plan_pdf, Stored)] empty_world
           _ _ (lit "65a1f0c2d4e6")
           eq_refl eq_refl eq_refl eq_refl eq_refl).
Defined.

Lemma lookup_map_subst (a b : char) (s : str) (i : nat) (c : char) :
  s !! i = Some c -> map (subst_char a b) s !! i = Some (subst_char a b c).
Proof.
  revert i. induction s as [|x s IH]; intros [|i] Hi; try discriminate.
  - injection Hi as ->. reflexivity.
  - cbn [map]. exact (IH i Hi).
Qed.

(** X10.  Sanitizing a filename changes nothing but the separators: the
    result has the length of the name, and at every position it holds '_'
    (code point 95) where the name holds '/' or '\', and the character of
    the name everywhere else.  A name without separators, such as ".." or
    the empty name, is therefore left as it is. *)
Theorem X10_safe_name_positionwise (fname : str) :
  length (safe_name fname) = length fname /\
  (forall (i : nat) (c : char),
     fname !! i = Some c ->
     safe_name fname !! i
     = Some (if (c =? 47)%N || (c =? 92)%N then 95%N else c)) /\
  ((47%N ∉ fname) -> (92%N ∉ fname) -> safe_name fname = fname).
Proof.
  split; [|split].
  - rewrite safe_name_map. now rewrite !length_map.
  - intros i c Hi. rewrite safe_name_map.
    rewrite (lookup_map_subst _ _ _ i (subst_char 47%N 95%N c))
      by now apply lookup_map_subst.
    f_equal. unfold subst_char.
    destruct (N.eqb_spec c 47%N) as [->|]; reflexivity.
  - apply safe_name_fixed.
Qed.

Lemma X10_witness :
  length (safe_name (lit "a/b\c")) = 5%nat /\
  lit "a/b\c" !! 3%nat = Some 92%N /\
  safe_name (lit "a/b\c") !! 3%nat = Some 95%N /\
  (47%N ∉ lit "..") /\ (92%N ∉ lit "..") /\
  safe_name (lit "..") = lit "..".
Proof.
  destruct (X10_safe_name_positionwise (lit "a/b\c")) as (Hlen & Hpos & _).
  destruct (X10_safe_name_positionwise (lit "..")) as (_ & _ & Hfix).
  assert (H1 : 47%N ∉ lit "..")
    by (apply (bool_decide_unpack _); vm_compute; exact I).
  assert (H2 : 92%N ∉ lit "..")
    by (apply (bool_decide_unpack _); vm_compute; exact I).
  split; [exact Hlen|]. split; [reflexivity|].
  split; [exact (Hpos 3%nat 92%N eq_refl)|].
  split; [exact H1|]. split; [exact H2|]. exact (Hfix H1 H2).
Defined.

(** ** Properties of [test_database] *)

Ltac by_database_state env :=
  unfold test_database, probe_database;
  destruct (import_db env) as [|?text|[?db|]] eqn:?Himport;
  [ | | destruct (list_collection_names db) as [?names|?text] eqn:?Hlist | ].

(** X11.  The response of [test_database] always has the same six keys,
    whatever the state of the database module and of the environment;
    "backend" is always "✅ Running". *)
Theorem X11_response_shape (env : DiagEnv) :
  dom (test_database env) = response_keys /\
  test_database env !! lit "backend"
  = Some (VStr (check_mark ++ lit " Running")).
Proof. by_database_state env; vm_compute; split; reflexivity. Qed.

(** X12.  The "database_url" and "database_name" fields of the response
    report the environment variables only: "✅ Set" when the variable holds
    a non-empty string, "❌ Not Set" when it is unset or empty.  What the
    probe of the database wrote there before ("✅ Configured", the name of
    the handle) is always overwritten, and the fields are never [None]. *)
Theorem X12_environment_fields (env : DiagEnv) :
  test_database env !! lit "database_url"
  = Some (VStr (if truthy (getenv env (lit "DATABASE_URL"))
                then check_mark ++ lit " Set"
                else cross_mark ++ lit " Not Set")) /\
  test_database env !! lit "database_name"
  = Some (VStr (if truthy (getenv env (lit "DATABASE_NAME"))
                then check_mark ++ lit " Set"
                else cross_mark ++ lit " Not Set")).
Proof. by_database_state env; vm_compute; split; reflexivity. Qed.

(** X13.  The "collections" field is always a list of at most ten names:
    the first ten names of [list_collection_names()], in order, when the
    handle is present and the listing succeeds, and the empty list in every
    other case. *)
Theorem X13_collections_at_most_ten (env : DiagEnv) :
  exists l : list str,
    test_database env !! lit "collections" = Some (VList l) /\
    (length l <= 10)%nat /\
    l = match import_db env with
        | Imported (Some _db) =>
            match list_collection_names _db with
            | Gives names => take 10 names
            | Fails _ => []
            end
        | _ => []
        end.
Proof.
  by_database_state env.
  - exists []. split; [vm_compute; reflexivity|]. split; [cbn; lia|reflexivity].
  - exists []. split; [vm_compute; reflexivity|]. split; [cbn; lia|reflexivity].
  - exists (take 10 names). split; [vm_compute; reflexivity|].
    split; [rewrite length_take; lia|reflexivity].
  - exists []. split; [vm_compute; reflexivity|]. split; [cbn; lia|reflexivity].
  - exists []. split; [vm_compute; reflexivity|]. split; [cbn; lia|reflexivity].
Qed.

(** X14.  "connection_status" is "Connected" exactly when the import binds
    a handle that is not [None], and "Not Connected" otherwise; "database"
    is "✅ Connected & Working" exactly when, in addition, the listing of
    the collections succeeds.  So a handle whose listing fails is still
    reported as connected. *)
Theorem X14_connection_status (env : DiagEnv) :
  test_database env !! lit "connection_status"
  = Some (VStr (match import_db env with
                | Imported (Some _) => lit "Connected"
                | _ => lit "Not Connected"
                end)) /\
  (test_database env !! lit "database"
   = Some (VStr (check_mark ++ lit " Connected & Working"))
   <->
   exists (_db : Database) (names : list str),
     import_db env = Imported (Some _db) /\
     list_collection_names _db = Gives names).
Proof.
  by_database_state env; (split; [vm_compute; reflexivity|]); split;
    try (vm_compute; discriminate);
    try (intros (d & l & Hd & Hl); congruence).
  - intros _. eauto.
  - vm_compute; reflexivity.
Qed.

Lemma length_take_le_50 (text : str) : (length (take 50 text) <= 50)%nat.
Proof. rewrite length_take. lia. Qed.

(** X15.  The "database" field never keeps its initial value
    "❌ Not Available": every path through the probe overwrites it.  When
    the import or the listing raises, the field is the message of that
    case followed by the first 50 characters of the exception text; in all
    cases it is at most 75 characters long. *)
Theorem X15_database_message (env : DiagEnv) :
  exists s : str,
    test_database env !! lit "database" = Some (VStr s) /\
    s <> cross_mark ++ lit " Not Available" /\
    (length s <= 75)%nat /\
    (forall text : str, import_db env = ImportRaises text ->
       s = cross_mark ++ lit " Error: " ++ take 50 text) /\
    (forall (_db : Database) (text : str),
       import_db env = Imported (Some _db) ->
       list_collection_names _db = Fails text ->
       s = warning_sign ++ lit "  Connected but Error: " ++ take 50 text).
Proof.
  by_database_state env.
  - eexists. split; [vm_compute; reflexivity|].
    split; [discriminate|]. split; [cbn; lia|].
    split; intros; discriminate.
  - exists (cross_mark ++ lit " Error: " ++ take 50 text).
    split; [vm_compute; reflexivity|].
    split; [vm_compute; discriminate|]. split.
    { pose proof (length_take_le_50 text) as Hlen.
      rewrite !length_app.
      change (length cross_mark) with 1%nat.
      change (length (lit " Error: ")) with 8%nat. lia. }
    split; [intros t [= <-]; reflexivity | intros; discriminate].
  - eexists. split; [vm_compute; reflexivity|].
    split; [discriminate|]. split; [cbn; lia|].
    split; [intros; discriminate | intros d t [= <-]; congruence].
  - exists (warning_sign ++ lit "  Connected but Error: " ++ take 50 text).
    split; [vm_compute; reflexivity|].
    split; [vm_compute; discriminate|]. split.
    { pose proof (length_take_le_50 text) as Hlen.
      rewrite !length_app.
      change (length warning_sign) with 2%nat.
      change (length (lit "  Connected but Error: ")) with 23%nat. lia. }
    split; [intros; discriminate|].
    intros d t [= <-] Ht. rewrite Hlist in Ht. now injection Ht as <-.
  - eexists. split; [vm_compute; reflexivity|].
    split; [discriminate|]. split; [cbn; lia|].
    split; intros; discriminate.
Qed.

Lemma X3_witness :
  (exists response : InquiryResponse,
     fst (max_mustermann (lit "max@example.com") (lit "Max Mustermann") None
            sample_env [(plan_pdf, Stored)] empty_world) = Return response) /\
  ~ (exists response : InquiryResponse,
       fst (max_mustermann (lit "max@example.com") (lit "Max Mustermann")
              None sample_env [(plan_pdf, disk_full)] empty_world)
       = Return response).
Proof.
  split.
  - apply (X3_success_iff sample_env
             (lit "Max Mustermann") (lit "max@example.com")
             (lit "0123456789") (lit "12345 Berlin") (lit "Neubau")
             (lit "Einfamilienhaus") None [(plan_pdf, Stored)] empty_world).
    split; [reflexivity|]. split; [repeat constructor|].
    split; eexists; reflexivity.
  - intros Hrun.
    apply (X3_success_iff sample_env
             (lit "Max Mustermann") (lit "max@example.com")
             (lit "0123456789") (lit "12345 Berlin") (lit "Neubau")
             (lit "Einfamilienhaus") None [(plan_pdf, disk_full)] empty_world)
      in Hrun.
    destruct Hrun as (_ & Hfiles & _).
    inversion Hfiles as [|fa l Hfault _]. discriminate Hfault.
Defined.

Lemma X14_witness :
  test_database timing_out_diag !! lit "connection_status"
  = Some (VStr (lit "Connected")) /\
  test_database timing_out_diag !! lit "database"
  <> Some (VStr (check_mark ++ lit " Connected & Working")) /\
  test_database working_diag !! lit "database"
  = Some (VStr (check_mark ++ lit " Connected & Working")).
Proof.
  destruct (X14_connection_status timing_out_diag) as [Hstatus Hworking].
  destruct (X14_connection_status working_diag) as [_ Hworking'].
  split; [exact Hstatus|]. split.
  - intros Hdb. apply Hworking in Hdb as (d & l & Hd & Hl).
    injection Hd as <-. discriminate Hl.
  - apply Hworking'. exists working_db, twelve. split; reflexivity.
Defined.

Lemma X15_witness :
  exists s : str,
    test_database timing_out_diag !! lit "database" = Some (VStr s) /\
    length s = 75%nat /\
    s = warning_sign ++ lit "  Connected but Error: "
        ++ lit "localhost:27017: timed out, Timeout: 5.0s, ......."
    /\ (exists text : str,
          list_collection_names timing_out_db = Fails text /\
          length text = 83%nat).
Proof.
  destruct (X15_database_message timing_out_diag)
    as (s & Hlookup & _ & _ & _ & Hlisting).
  exists s. split; [exact Hlookup|].
  rewrite (Hlisting timing_out_db _ eq_refl eq_refl).
  split; [reflexivity|]. split; [reflexivity|].
  eexists. split; reflexivity.
Defined.
